(** * Models and fitting with astropy.modeling: the notebooks' own code

    The two notebooks define one function of their own,
    [calc_reduced_chi_square], and one model class of their own, [SineNew];
    everything else is a call into numpy or astropy.modeling.

    Numbers.  A numpy float64 is modelled by an exact rational extended with
    the IEEE special values that numpy produces instead of raising
    (division by zero gives inf or nan).  Rounding, overflow and the sign of
    zero are outside that model: every zero is +0.  The integers [N] and
    [n_free] are Python ints, modelled by [Z].  The derivative of [SineNew]
    needs sin and cos and is stated over the real numbers.  Where rounding
    decides, the function is also given in binary64 itself (module [B64]),
    on the primitive floats. *)

From Stdlib Require Import ZArith QArith Qcanon Qpower List Bool Lia.
From Stdlib Require Import String DecimalString.
From Stdlib Require Import Reals Psatz.
From Stdlib Require Import Permutation.
From Stdlib Require Floats.
Import ListNotations.

(** ** float64 values *)

Module Float.

Local Open Scope Qc_scope.

Inductive float64 : Type :=
| Fin (q : Qc)
| PInf
| NInf
| NaN.

(** A float literal, and the conversion of a Python int. *)
Definition lit (q : Q) : float64 := Fin (Q2Qc q).

Definition of_int (n : Z) : float64 := lit (inject_Z n).

Definition is_finite (v : float64) : bool :=
  match v with Fin _ => true | _ => false end.

(** [inf_of_sign c] is the infinity whose sign is that of a number comparing
    as [c] with zero; nan when the number is zero. *)
Definition inf_of_sign (c : comparison) : float64 :=
  match c with Gt => PInf | Lt => NInf | Eq => NaN end.

Definition fneg (a : float64) : float64 :=
  match a with
  | Fin q => Fin (- q)
  | PInf => NInf
  | NInf => PInf
  | NaN => NaN
  end.

Definition fadd (a b : float64) : float64 :=
  match a, b with
  | Fin p, Fin q => Fin (p + q)
  | NaN, _ | _, NaN => NaN
  | PInf, NInf | NInf, PInf => NaN
  | PInf, _ | _, PInf => PInf
  | NInf, _ | _, NInf => NInf
  end.

Definition fsub (a b : float64) : float64 := fadd a (fneg b).

Definition fmul (a b : float64) : float64 :=
  match a, b with
  | Fin p, Fin q => Fin (p * q)
  | NaN, _ | _, NaN => NaN
  | PInf, Fin q | Fin q, PInf => inf_of_sign (q ?= 0)
  | NInf, Fin q | Fin q, NInf => inf_of_sign (0 ?= q)
  | PInf, PInf | NInf, NInf => PInf
  | PInf, NInf | NInf, PInf => NInf
  end.

(** numpy's float64 division: a zero divisor gives inf (nan for 0/0) and a
    RuntimeWarning, never an exception. *)
Definition fdiv (a b : float64) : float64 :=
  match a, b with
  | Fin p, Fin q =>
      match q ?= 0 with
      | Eq => inf_of_sign (p ?= 0)
      | _ => Fin (p / q)
      end
  | NaN, _ | _, NaN => NaN
  | Fin _, _ => Fin 0
  | PInf, Fin q => match q ?= 0 with Lt => NInf | _ => PInf end
  | NInf, Fin q => match q ?= 0 with Lt => PInf | _ => NInf end
  | _, _ => NaN
  end.

(** [x ** n] for a non-negative integer exponent. *)
Fixpoint fpow (a : float64) (n : nat) : float64 :=
  match n with
  | O => Fin 1
  | S k => fmul a (fpow a k)
  end.

Definition fle0 (a : float64) : bool :=
  match a with
  | Fin q => match q ?= 0 with Gt => false | _ => true end
  | NInf => true
  | PInf | NaN => false
  end.

Definition fpos (a : float64) : bool :=
  match a with
  | Fin q => match q ?= 0 with Gt => true | _ => false end
  | _ => false
  end.

End Float.

(** ** Python exceptions and results *)

Module Py.

Import Float.

Inductive exn : Type :=
| ZeroDivisionError
| ValueError
| TypeError.

Inductive result (A : Type) : Type :=
| Ok (v : A)
| Raise (e : exn).

Arguments Ok {A} v.
Arguments Raise {A} e.

Definition bind {A B : Type} (r : result A) (k : A -> result B) : result B :=
  match r with
  | Ok v => k v
  | Raise e => Raise e
  end.

Notation "x <- r ;; k" := (bind r (fun x => k))
  (at level 61, r at next level, right associativity).

(** [a / n] for a Python float [a] and a Python int [n]: true division
    raises ZeroDivisionError on a zero divisor. *)
Definition truediv (a : float64) (n : Z) : result float64 :=
  if (n =? 0)%Z then Raise ZeroDivisionError else Ok (fdiv a (of_int n)).

(** The builtin [sum]: starts from 0 and adds the items left to right. *)
Definition sum (l : list float64) : float64 :=
  fold_left fadd l (Fin 0%Qc).

End Py.

(** ** numpy one-dimensional arrays *)

Module Np.

Import Float Py.

Definition ndarray : Type := list float64.

Fixpoint zip_with (op : float64 -> float64 -> float64) (a b : ndarray)
  : ndarray :=
  match a, b with
  | u :: a', v :: b' => op u v :: zip_with op a' b'
  | _, _ => []
  end.

(** Binary ufunc on two one-dimensional arrays: equal shapes combine
    elementwise, a length-1 operand is broadcast, any other pair of shapes
    raises ValueError. *)
Definition ufunc2 (op : float64 -> float64 -> float64) (a b : ndarray)
  : result ndarray :=
  if Nat.eqb (List.length a) (List.length b) then Ok (zip_with op a b)
  else match a, b with
       | [s], _ => Ok (map (op s) b)
       | _, [s] => Ok (map (fun v => op v s) a)
       | _, _ => Raise ValueError
       end.

Definition subtract : ndarray -> ndarray -> result ndarray := ufunc2 fsub.
Definition divide : ndarray -> ndarray -> result ndarray := ufunc2 fdiv.

(** [a ** n] with a Python int exponent. *)
Definition power (a : ndarray) (n : nat) : ndarray :=
  map (fun v => fpow v n) a.

(** [s * a] with a scalar [s]. *)
Definition scale (s : float64) (a : ndarray) : ndarray := map (fmul s) a.

End Np.

(** ** The reduced chi-square of the notebooks *)

Module ChiSquare.

Import Float Py Np.

(** Both notebooks define the same function:
    [return 1.0 / (N - n_free) * sum(((fit - y) / yerr) ** 2)].  The left
    operand of [*] is evaluated first, so the ZeroDivisionError of
    [1.0 / 0] comes before any error of the array expression.  The argument
    [x] is not used. *)
Definition calc_reduced_chi_square
  (fit x y yerr : ndarray) (N n_free : Z) : result float64 :=
  factor <- truediv (lit 1) (N - n_free) ;;
  d <- subtract fit y ;;
  r <- divide d yerr ;;
  Ok (fmul factor (Py.sum (power r 2))).

(** The formula of the specification, written as it reads there:
    (1 / (n - freeParameterCount)) * sum over i = 1..n of
    ((fitValues_i - observed_i) / uncertainty_i)^2.
    Items are counted from 0 here. *)
Fixpoint big_sum (n : nat) (f : nat -> float64) : float64 :=
  match n with
  | O => Fin 0%Qc
  | S k => fadd (big_sum k f) (f k)
  end.

Definition item (a : ndarray) (i : nat) : float64 := nth i a NaN.

Definition residual (f v u : float64) : float64 :=
  fpow (fdiv (fsub f v) u) 2.

Definition reduced_chi_square_formula
  (fit y yerr : ndarray) (N n_free : Z) : float64 :=
  fmul (fdiv (lit 1) (of_int (N - n_free)))
       (big_sum (Z.to_nat N)
                (fun i => residual (item fit i) (item y i) (item yerr i))).

(** Valid inputs of the evaluator: three arrays of real numbers of one
    length, every uncertainty positive, and a positive number of degrees of
    freedom. *)
Definition valid_input (fit y yerr : ndarray) (N n_free : Z) : bool :=
  Nat.eqb (List.length y) (List.length fit)
  && Nat.eqb (List.length yerr) (List.length fit)
  && forallb is_finite fit
  && forallb is_finite y
  && forallb fpos yerr
  && (0 <? N - n_free)%Z.

(** [a[idx]]: the items of [a] at the positions [idx], in that order.  It is
    used with positions in range only (numpy raises IndexError on the
    others, [item] gives nan). *)
Definition take (a : ndarray) (idx : list nat) : ndarray :=
  map (item a) idx.


End ChiSquare.

(** ** Models of astropy.modeling, as the specification describes them

    The notebooks build their models with astropy.modeling, whose code is
    not part of the repository. *)

Module Modeling.

Import Float Py Np.
Local Open Scope string_scope.

(** Modelled from the spec: the Model of astropy.modeling, an ordered
    sequence of named parameters with their values and an evaluate function
    of (independent variable array, parameter values).  [children] lists
    the parameter names of the child models a compound model owns, in
    construction order; a model that is not compound has one entry, its
    own names. *)
Record Model : Type := {
  param_names : list string;
  parameters : list float64;
  evaluate : ndarray -> list float64 -> result ndarray;
  children : list (list string)
}.

(** [model(x)]: evaluate with the model's own parameter values. *)
Definition call (m : Model) (x : ndarray) : result ndarray :=
  evaluate m x (parameters m).

(** Modelled from the spec: the combining operators of a compound model
    (+, -, x, / of astropy.modeling). *)
Inductive operator : Type := Add | Sub | Mul | Div.

Definition apply_operator (op : operator)
  : float64 -> float64 -> float64 :=
  match op with
  | Add => fadd
  | Sub => fsub
  | Mul => fmul
  | Div => fdiv
  end.

Definition string_of_nat (n : nat) : string :=
  NilEmpty.string_of_uint (Nat.to_uint n).

(** [<original>_<childIndex>]. *)
Definition rename (child_index : nat) (name : string) : string :=
  name ++ "_" ++ string_of_nat child_index.

(** The names of the children from index [i] on: the names of each child
    renamed with its index, child after child. *)
Fixpoint child_names (i : nat) (cs : list (list string)) : list string :=
  match cs with
  | [] => []
  | names :: rest => map (rename i) names ++ child_names (S i) rest
  end.

(** Modelled from the spec: the CompoundModel of astropy.modeling.  It
    owns the children of its two operands, left to right (index 0 for the
    first child, 1 for the second, and so on: combining a compound model
    with a further model adds that model as the next child).  Its
    parameter sequence is the concatenation of the children's, each name
    renamed [<original>_<childIndex>]; evaluate gives each operand its own
    share of the parameters, evaluates both on the same [x] and combines
    the outputs elementwise (division follows IEEE, it does not raise). *)
Definition CompoundModel (op : operator) (left right : Model) : Model :=
  {| param_names := child_names 0 (children left ++ children right);
     parameters := parameters left ++ parameters right;
     evaluate := fun x params =>
       let n := List.length (parameters left) in
       yl <- evaluate left x (firstn n params) ;;
       yr <- evaluate right x (skipn n params) ;;
       ufunc2 (apply_operator op) yl yr;
     children := children left ++ children right |}.

(** Modelled from the spec: the linear model, slope * x + intercept. *)
Definition Linear1D (slope intercept : float64) : Model :=
  {| param_names := ["slope"; "intercept"];
     parameters := [slope; intercept];
     evaluate := fun x params =>
       match params with
       | [s; i] => Ok (map (fun v => fadd (fmul s v) i) x)
       | _ => Raise TypeError
       end;
     children := [["slope"; "intercept"]] |}.

Fixpoint polynomial (cs : list float64) (i : nat) (v : float64) : float64 :=
  match cs with
  | [] => Fin 0%Qc
  | c :: cs' => fadd (fmul c (fpow v i)) (polynomial cs' (S i) v)
  end.

(** Modelled from the spec: the polynomial of degree d, the sum of
    c_i * x^i, with parameters c0 .. cd that default to 0. *)
Definition Polynomial1D (degree : nat) : Model :=
  {| param_names :=
       map (fun i => "c" ++ string_of_nat i) (seq 0 (S degree));
     parameters := repeat (lit 0) (S degree);
     evaluate := fun x params =>
       if Nat.eqb (List.length params) (S degree)
       then Ok (map (polynomial params 0) x)
       else Raise TypeError;
     children :=
       [map (fun i => "c" ++ string_of_nat i) (seq 0 (S degree))] |}.

(** Modelled from the spec: the Gaussian,
    amplitude * exp(-(x - mean)^2 / (2 * stddev^2)).  The exponential is
    taken as a parameter. *)
Definition Gaussian1D (exp : float64 -> float64)
  (amplitude mean stddev : float64) : Model :=
  {| param_names := ["amplitude"; "mean"; "stddev"];
     parameters := [amplitude; mean; stddev];
     evaluate := fun x params =>
       match params with
       | [a; m; s] =>
           Ok (map (fun v =>
                      fmul a (exp (fdiv (fneg (fpow (fsub v m) 2))
                                        (fmul (lit 2) (fpow s 2)))))
                   x)
       | _ => Raise TypeError
       end;
     children := [["amplitude"; "mean"; "stddev"]] |}.

(** [compound_model = models.Gaussian1D(1, 6563, 10)
                      + models.Polynomial1D(degree=1)] *)
Definition compound_model (exp : float64 -> float64) : Model :=
  CompoundModel Add (Gaussian1D exp (lit 1) (lit 6563) (lit 10))
                (Polynomial1D 1).

End Modeling.

(** ** The full custom model SineNew *)

Module SineNew.

Local Open Scope R_scope.

(** Arrays of reals, with the numpy operations the class uses: a scalar
    times an array, an array plus a scalar, the product of two arrays of
    one shape, [np.sin], [np.cos] and [np.ones]. *)
Definition rarray : Type := list R.

Definition smul (s : R) (a : rarray) : rarray := map (fun v => s * v) a.
Definition sadd (a : rarray) (s : R) : rarray := map (fun v => v + s) a.

Fixpoint amul (a b : rarray) : rarray :=
  match a, b with
  | u :: a', v :: b' => u * v :: amul a' b'
  | _, _ => []
  end.

Definition np_sin (a : rarray) : rarray := map sin a.
Definition np_cos (a : rarray) : rarray := map cos a.
Definition np_ones (shape : nat) : rarray := repeat 1 shape.

(** The declared parameters, in order. *)
Definition param_names : list string := ["a"; "b"; "c"; "d"]%string.

(** [return a * np.sin(b * x + c) + d] *)
Definition evaluate (x : rarray) (a b c d : R) : rarray :=
  sadd (smul a (np_sin (sadd (smul b x) c))) d.

(** [d_a = np.sin(b * x + c)], [d_b = a * np.cos(b * x + c) * x],
    [d_c = a * np.cos(b * x + c)], [d_d = np.ones(x.shape)],
    [return [d_a, d_b, d_c, d_d]] *)
Definition fit_deriv (x : rarray) (a b c d : R) : list rarray :=
  let d_a := np_sin (sadd (smul b x) c) in
  let d_b := amul (smul a (np_cos (sadd (smul b x) c))) x in
  let d_c := smul a (np_cos (sadd (smul b x) c)) in
  let d_d := np_ones (List.length x) in
  [d_a; d_b; d_c; d_d].

End SineNew.

(** ** Auxiliary notions for the reduced chi-square *)

Module Residuals.

Import Float Py Np ChiSquare.
Local Open Scope Qc_scope.

Definition is_zero (a : float64) : bool :=
  match a with
  | Fin q => match q ?= 0 with Eq => true | _ => false end
  | _ => false
  end.

Definition is_inf_or_nan (a : float64) : bool :=
  match a with PInf | NaN => true | _ => false end.

Definition rmap {A B : Type} (f : A -> B) (r : result A) : result B :=
  match r with
  | Ok v => Ok (f v)
  | Raise e => Raise e
  end.

(** [-a]. *)
Definition negative (a : ndarray) : ndarray := map fneg a.

End Residuals.

(** ** The Gaussian of the first notebook, over the real numbers *)

Module RealFunctions.

Import SineNew.
Local Open Scope R_scope.

(** More numpy operations on arrays of reals: an array minus a scalar,
    [a ** n], [-a], an array divided by a scalar and [np.exp]. *)
Definition ssub (a : rarray) (s : R) : rarray := map (fun v => v - s) a.
Definition apow (a : rarray) (n : nat) : rarray := map (fun v => v ^ n) a.
Definition aneg (a : rarray) : rarray := map Ropp a.
Definition sdiv (a : rarray) (s : R) : rarray := map (fun v => v / s) a.
Definition np_exp (a : rarray) : rarray := map exp a.

(** The Gaussian handed to scipy's curve_fit in the first notebook:
    [return a * np.exp(-((x - b) ** 2) / (2.0 * c**2))]. *)
Definition f (x : rarray) (a b c : R) : rarray :=
  smul a (np_exp (sdiv (aneg (apow (ssub x b) 2)) (2 * c ^ 2))).

End RealFunctions.

(** ** The unit string of the spectrum header *)

Module Header.

Local Open Scope string_scope.

(** [s[n:]]: the string without its first [n] characters, empty when it
    has no more than [n]. *)
Fixpoint slice_from (n : nat) (s : string) : string :=
  match n, s with
  | O, _ => s
  | S k, String _ s' => slice_from k s'
  | S _, EmptyString => EmptyString
  end.

(** [units_wavelength = units_wavelength_full[36:]] *)
Definition units_wavelength (units_wavelength_full : string) : string :=
  slice_from 36 units_wavelength_full.

End Header.

(** ** The reduced chi-square in binary64

    The function once more, on the primitive binary64 floats: every
    operation rounds to nearest even, overflows to inf and underflows as
    IEEE 754 says.  It is the embedding to consult where rounding decides
    a property. *)

Module B64.

Import PrimFloat FloatOps SpecFloat.
Local Open Scope float_scope.

Inductive exn : Type :=
| ZeroDivisionError
| OverflowError
| ValueError.

Inductive result (A : Type) : Type :=
| Ok (v : A)
| Raise (e : exn).

Arguments Ok {A} v.
Arguments Raise {A} e.

Definition bind {A B : Type} (r : result A) (k : A -> result B) : result B :=
  match r with
  | Ok v => k v
  | Raise e => Raise e
  end.

Notation "x <- r ;; k" := (bind r (fun x => k))
  (at level 61, r at next level, right associativity).

Definition ndarray : Type := list float.

(** The float of a Python int: the nearest binary64, ties to even. *)
Definition float_of_int (n : Z) : float :=
  SF2Prim (binary_normalize prec emax n 0 false).

(** The ints whose float is finite: those below 2^1024 - 2^970 in absolute
    value, halfway between the largest float and 2^1024. *)
Definition int_fits (n : Z) : bool :=
  (Z.abs n <? 2 ^ 1024 - 2 ^ 970)%Z.

(** [a / n] for a Python float [a] and a Python int [n]: the int is
    converted first (OverflowError when it is too large), then a zero
    divisor raises ZeroDivisionError.  The float of an int is 0.0 only for
    the int 0, so the test is made on [n]. *)
Definition truediv (a : float) (n : Z) : result float :=
  if negb (int_fits n) then Raise OverflowError
  else if (n =? 0)%Z then Raise ZeroDivisionError
  else Ok (a / float_of_int n).

(** The builtin [sum]: starts from 0 and adds the items left to right. *)
Definition sum (l : list float) : float := fold_left add l 0.

Fixpoint zip_with (op : float -> float -> float) (a b : ndarray)
  : ndarray :=
  match a, b with
  | u :: a', v :: b' => op u v :: zip_with op a' b'
  | _, _ => []
  end.

(** numpy's broadcasting rule for two one-dimensional shapes, and the
    shape of the result. *)
Definition broadcastable (m n : nat) : bool :=
  Nat.eqb m n || Nat.eqb m 1 || Nat.eqb n 1.

Definition broadcast_length (m n : nat) : nat :=
  if Nat.eqb m n then m else if Nat.eqb m 1 then n else m.

(** Binary ufunc on two one-dimensional arrays: equal shapes combine
    elementwise, a length-1 operand is broadcast, any other pair of shapes
    raises ValueError. *)
Definition ufunc2 (op : float -> float -> float) (a b : ndarray)
  : result ndarray :=
  if Nat.eqb (List.length a) (List.length b) then Ok (zip_with op a b)
  else match a, b with
       | [s], _ => Ok (map (op s) b)
       | _, [s] => Ok (map (fun v => op v s) a)
       | _, _ => Raise ValueError
       end.

Definition subtract : ndarray -> ndarray -> result ndarray := ufunc2 sub.
Definition divide : ndarray -> ndarray -> result ndarray := ufunc2 div.

(** [x ** n] and [a ** n] for a non-negative integer exponent; [a * 1] is
    [a], so that [fpow a 2] is the product [a * a]. *)
Fixpoint fpow (a : float) (n : nat) : float :=
  match n with
  | O => 1
  | S k => a * fpow a k
  end.

Definition power (a : ndarray) (n : nat) : ndarray :=
  map (fun v => fpow v n) a.

(** [s * a] with a scalar [s]. *)
Definition scale (s : float) (a : ndarray) : ndarray := map (mul s) a.

(** [return 1.0 / (N - n_free) * sum(((fit - y) / yerr) ** 2)] *)
Definition calc_reduced_chi_square
  (fit x y yerr : ndarray) (N n_free : Z) : result float :=
  factor <- truediv 1 (N - n_free) ;;
  d <- subtract fit y ;;
  r <- divide d yerr ;;
  Ok (factor * sum (power r 2)).

Definition item (a : ndarray) (i : nat) : float := nth i a nan.

Definition residual (f v u : float) : float := fpow ((f - v) / u) 2.

(** [a[idx]], used with positions in range only. *)
Definition take (a : ndarray) (idx : list nat) : ndarray :=
  map (item a) idx.

(** The shapes for which [(fit - y) / yerr] is defined. *)
Definition shapes_ok (fit y yerr : ndarray) : bool :=
  broadcastable (List.length fit) (List.length y)
  && broadcastable (broadcast_length (List.length fit) (List.length y))
                   (List.length yerr).

(** A float is a real number when it is neither inf nor nan, and a
    positive number when, in addition, it is above zero. *)
Definition is_real (a : float) : bool :=
  match Prim2SF a with
  | S754_zero _ | S754_finite _ _ _ => true
  | _ => false
  end.

Definition is_positive (a : float) : bool :=
  match Prim2SF a with
  | S754_finite false _ _ => true
  | _ => false
  end.

(** Valid inputs of the evaluator: [N] real numbers per array, every
    uncertainty positive, [n_free] a count of parameters below [N], and
    [N - n_free] small enough for a float. *)
Definition valid_input (fit y yerr : ndarray) (N n_free : Z) : bool :=
  (Z.of_nat (List.length fit) =? N)%Z
  && Nat.eqb (List.length y) (List.length fit)
  && Nat.eqb (List.length yerr) (List.length fit)
  && forallb is_real fit
  && forallb is_real y
  && forallb is_positive yerr
  && (0 <=? n_free)%Z
  && (0 <? N - n_free)%Z
  && int_fits (N - n_free).

(** The number a float stands for, in the exact model: the rational
    m * 2^e of a finite float, and inf and nan as they are. *)
Definition exact_value (a : float) : Float.float64 :=
  match Prim2SF a with
  | S754_zero _ => Float.Fin (Q2Qc 0)
  | S754_finite s m e =>
      Float.Fin
        (Q2Qc (inject_Z (if s then Z.neg m else Z.pos m) * 2 ^ e)%Q)
  | S754_infinity false => Float.PInf
  | S754_infinity true => Float.NInf
  | S754_nan => Float.NaN
  end.

Definition exact (a : ndarray) : list Float.float64 := map exact_value a.

End B64.

(** * Properties *)

(** ** Arithmetic of the float64 model *)

(** Closed computations: equal rationals carry equal canonicity proofs. *)
Ltac canon :=
  vm_compute;
  repeat first [reflexivity | apply Qc_is_canon; reflexivity | f_equal].

Section FloatFacts.

Import Float.
Local Open Scope Qc_scope.



Lemma fadd_0_l (a : float64) : fadd (Fin 0) a = a.
Proof.
  destruct a; simpl; try reflexivity.
  f_equal. ring.
Qed.

Lemma of_int_compare (n : Z) :
  (Q2Qc (inject_Z n) ?= 0) = (n ?= 0)%Z.
Proof.
  unfold Qccompare. cbn [this Q2Qc].
  change (this 0) with (Qred 0%Q).
  rewrite <- Qred_compare.
  unfold Qcompare. simpl. now rewrite Z.mul_1_r.
Qed.



End FloatFacts.

(** ** The reduced chi-square *)

Section ChiSquareFacts.

Import Float Py Np ChiSquare.
Local Open Scope Qc_scope.

Lemma ufunc2_same_length op (a b : ndarray) :
  List.length a = List.length b -> ufunc2 op a b = Ok (zip_with op a b).
Proof.
  intros H. unfold ufunc2. now rewrite H, Nat.eqb_refl.
Qed.

Lemma ufunc2_raises op (a b : ndarray) e :
  ufunc2 op a b = Raise e -> e = ValueError.
Proof.
  unfold ufunc2. destruct (Nat.eqb _ _); [discriminate |].
  destruct a as [|s [|]]; destruct b as [|t [|]]; intros H;
    try discriminate H; now inversion H.
Qed.

Lemma zip_with_length op (a b : ndarray) :
  List.length a = List.length b ->
  List.length (zip_with op a b) = List.length a.
Proof.
  revert b. induction a as [|u a IH]; intros [|v b] H; simpl in *;
    try reflexivity; try discriminate.
  f_equal. apply IH. now injection H.
Qed.

(** The array expression of the function, for operands of one length. *)
Lemma calc_same_length (fit x y yerr : ndarray) (N n_free : Z) :
  List.length y = List.length fit ->
  List.length yerr = List.length fit ->
  (N - n_free <> 0)%Z ->
  calc_reduced_chi_square fit x y yerr N n_free
  = Ok (fmul (fdiv (lit 1) (of_int (N - n_free)))
             (Py.sum (power (zip_with fdiv (zip_with fsub fit y) yerr) 2))).
Proof.
  intros Hy Hu Hn. unfold calc_reduced_chi_square, truediv.
  apply Z.eqb_neq in Hn. rewrite Hn. cbn [bind].
  unfold subtract. rewrite ufunc2_same_length by congruence. cbn [bind].
  unfold divide. rewrite ufunc2_same_length; [reflexivity |].
  rewrite zip_with_length; congruence.
Qed.

Lemma residuals_seq (fit y yerr : ndarray) :
  List.length y = List.length fit ->
  List.length yerr = List.length fit ->
  power (zip_with fdiv (zip_with fsub fit y) yerr) 2
  = map (fun i => residual (item fit i) (item y i) (item yerr i))
        (seq 0 (List.length fit)).
Proof.
  revert y yerr.
  induction fit as [|f fit IH]; intros [|v y] [|u yerr] Hy Hu;
    simpl in Hy, Hu; try discriminate; [reflexivity |].
  cbn [List.length seq map zip_with power]. f_equal.
  rewrite <- seq_shift, map_map. unfold power in IH.
  apply IH; congruence.
Qed.




Lemma sum_map_seq (g : nat -> float64) (n : nat) :
  Py.sum (map g (seq 0 n)) = big_sum n g.
Proof.
  unfold Py.sum. induction n as [|n IH]; [reflexivity |].
  rewrite seq_S, map_app, fold_left_app, IH. reflexivity.
Qed.


(** The array expression on shapes that do not agree, and on a zero
    uncertainty. *)
Example shapes_3_2_raise :
  calc_reduced_chi_square [lit 1; lit 2; lit 3] [] [lit 1; lit 2]
                          [lit 1; lit 1; lit 1] 3 1
  = Raise ValueError.
Proof. reflexivity. Qed.

Example zero_degrees_come_first :
  calc_reduced_chi_square [lit 1; lit 2; lit 3] [] [lit 1; lit 2]
                          [lit 1; lit 1; lit 1] 3 3
  = Raise ZeroDivisionError.
Proof. reflexivity. Qed.

Example length_1_is_broadcast :
  calc_reduced_chi_square [lit 2; lit 3] [] [lit 1] [lit 1; lit 1] 2 1
  = Ok (lit 5).
Proof. canon. Qed.

Example zero_uncertainty_gives_inf :
  calc_reduced_chi_square [lit 2; lit 2] [] [lit 1; lit 1]
                          [lit 0; lit 1] 2 1
  = Ok PInf.
Proof. reflexivity. Qed.

Lemma valid_input_inv (fit y yerr : ndarray) (N n_free : Z) :
  valid_input fit y yerr N n_free = true ->
  List.length y = List.length fit /\
  List.length yerr = List.length fit /\
  forallb is_finite fit = true /\
  forallb is_finite y = true /\
  forallb fpos yerr = true /\
  (0 < N - n_free)%Z.
Proof.
  unfold valid_input. intros H.
  repeat (apply andb_prop in H; destruct H as [H ?]).
  repeat split; try assumption.
  - now apply Nat.eqb_eq.
  - now apply Nat.eqb_eq.
  - now apply Z.ltb_lt.
Qed.

Lemma item_forallb (P : float64 -> bool) (a : ndarray) (i : nat) :
  forallb P a = true -> (i < List.length a)%nat -> P (item a i) = true.
Proof.
  intros H Hi. rewrite forallb_forall in H. apply H.
  unfold item. now apply nth_In.
Qed.


Lemma factor_finite (k : Z) :
  (k <> 0)%Z -> fdiv (lit 1) (of_int k) = Fin (1 / Q2Qc (inject_Z k)).
Proof.
  intros Hk. unfold of_int, lit, fdiv. rewrite of_int_compare.
  destruct (k ?= 0)%Z eqn:E; try reflexivity.
  apply Z.compare_eq_iff in E. contradiction.
Qed.




(** A residual with equal fit and observation is zero. *)
Lemma residual_same (f u : float64) :
  is_finite f = true -> fpos u = true -> residual f f u = Fin 0.
Proof.
  destruct f as [p| | |], u as [q| | |]; try discriminate.
  intros _ Hq. cbn in Hq. unfold residual, fsub, fneg, fadd, fdiv.
  destruct (q ?= 0) eqn:E; try discriminate.
  cbn. f_equal. unfold Qcdiv. ring.
Qed.


Lemma sum_zero (g : nat -> float64) (idx : list nat) :
  (forall i, In i idx -> g i = Fin 0) -> Py.sum (map g idx) = Fin 0.
Proof.
  unfold Py.sum. induction idx as [|i idx IH]; intros H; [reflexivity |].
  cbn [map fold_left]. rewrite (H i) by now left.
  rewrite fadd_0_l. apply IH. intros j Hj. apply H. now right.
Qed.


End ChiSquareFacts.

(** ** Claims on the reduced chi-square *)

Section ChiSquareClaims.

Import Float Py Np ChiSquare.
Local Open Scope Qc_scope.

(** C1.  For three arrays of length [N] and [N - n_free <> 0] the function
    returns the value of the specification's formula; on fit = [2,2,2],
    y = [1,1,1], yerr = [1,1,1], N = 3, n_free = 1 it returns 1.5. *)
Theorem calc_reduced_chi_square_formula :
  (forall (fit x y yerr : ndarray) (N n_free : Z),
      Z.of_nat (List.length fit) = N ->
      Z.of_nat (List.length y) = N ->
      Z.of_nat (List.length yerr) = N ->
      (N - n_free <> 0)%Z ->
      calc_reduced_chi_square fit x y yerr N n_free
      = Ok (reduced_chi_square_formula fit y yerr N n_free))
  /\ (forall x : ndarray,
         calc_reduced_chi_square [lit 2; lit 2; lit 2] x
                                 [lit 1; lit 1; lit 1]
                                 [lit 1; lit 1; lit 1] 3 1
         = Ok (lit 1.5)).
Proof.
  split.
  - intros fit x y yerr N n_free Hf Hy Hu Hn.
    assert (Ey : List.length y = List.length fit) by lia.
    assert (Eu : List.length yerr = List.length fit) by lia.
    rewrite (calc_same_length _ _ _ _ _ _ Ey Eu Hn).
    rewrite (residuals_seq _ _ _ Ey Eu), sum_map_seq.
    unfold reduced_chi_square_formula.
    now rewrite <- Hf, Nat2Z.id.
  - intros x. canon.
Qed.

Lemma calc_reduced_chi_square_formula_witness :
  calc_reduced_chi_square [lit 3; lit 5] [lit 0; lit 1] [lit 1; lit 1]
                          [lit 2; lit 4] 2 1
  = Ok (reduced_chi_square_formula [lit 3; lit 5] [lit 1; lit 1]
                                   [lit 2; lit 4] 2 1).
Proof.
  apply (proj1 calc_reduced_chi_square_formula); simpl; lia.
Defined.

(** C2, counterexample.  With n = 1 < freeParameterCount = 2 the function
    returns -1.0 and signals nothing. *)
Lemma fewer_points_than_parameters_returns :
  (1 - 2 <= 0)%Z
  /\ calc_reduced_chi_square [lit 2] [lit 0] [lit 1] [lit 1] 1 2
     = Ok (lit (-1)).
Proof.
  split; [lia | canon].
Qed.

(** C2, amended.  The function fails on the degrees of freedom, with
    Python's ZeroDivisionError, exactly when [N = n_free]. *)
Theorem zero_degrees_of_freedom_iff
  (fit x y yerr : ndarray) (N n_free : Z) :
  calc_reduced_chi_square fit x y yerr N n_free = Raise ZeroDivisionError
  <-> N = n_free.
Proof.
  unfold calc_reduced_chi_square, truediv.
  destruct (N - n_free =? 0)%Z eqn:E; cbn [bind].
  - apply Z.eqb_eq in E. split; [lia | reflexivity].
  - apply Z.eqb_neq in E. split; [| lia].
    unfold subtract, divide.
    destruct (ufunc2 fsub fit y) as [d|e] eqn:Ed; cbn [bind].
    + destruct (ufunc2 fdiv d yerr) as [r|e] eqn:Er; cbn [bind];
        [discriminate |].
      apply ufunc2_raises in Er. subst e. discriminate.
    + apply ufunc2_raises in Ed. subst e. discriminate.
Qed.

Lemma zero_degrees_of_freedom_iff_witness :
  calc_reduced_chi_square [lit 2; lit 2] [lit 0; lit 1] [lit 1; lit 1]
                          [lit 1; lit 1] 2 2
  = Raise ZeroDivisionError.
Proof.
  apply zero_degrees_of_freedom_iff. reflexivity.
Defined.

(** C5.  On valid inputs whose fit equals the observations elementwise
    the function returns exactly 0. *)
Theorem exact_fit_gives_zero
  (fit x yerr : ndarray) (N n_free : Z) :
  valid_input fit fit yerr N n_free = true ->
  calc_reduced_chi_square fit x fit yerr N n_free = Ok (lit 0).
Proof.
  intros H. apply valid_input_inv in H.
  destruct H as (Ey & Eu & Ff & _ & Pu & Hn).
  rewrite (calc_same_length _ _ _ _ _ _ Ey Eu) by lia.
  rewrite (residuals_seq _ _ _ Ey Eu), sum_zero.
  - rewrite factor_finite by lia. cbn [fmul]. unfold lit.
    f_equal. f_equal. ring.
  - intros i Hi. apply in_seq in Hi.
    apply residual_same; apply item_forallb; trivial; lia.
Qed.

Lemma exact_fit_gives_zero_witness :
  calc_reduced_chi_square [lit 1; lit 2; lit 3] [lit 0; lit 1; lit 2]
                          [lit 1; lit 2; lit 3] [lit 1; lit 1; lit 1] 3 1
  = Ok (lit 0).
Proof.
  apply exact_fit_gives_zero. reflexivity.
Defined.



(** C8, counterexample.  With every uncertainty equal to -1 the function
    returns 2.0 and signals nothing. *)
Lemma negative_uncertainty_returns :
  existsb fle0 [lit (-1); lit (-1)] = true
  /\ calc_reduced_chi_square [lit 2; lit 2] [lit 0; lit 1] [lit 1; lit 1]
                             [lit (-1); lit (-1)] 2 1
     = Ok (lit 2).
Proof.
  split; [reflexivity | canon].
Qed.

(** C8, amended.  The function does not inspect the uncertainties: for
    arrays of one length and [N <> n_free] it returns a value for every
    uncertainty array, entries that are zero or negative included. *)
Theorem uncertainty_not_validated
  (fit x y yerr : ndarray) (N n_free : Z) :
  List.length y = List.length fit ->
  List.length yerr = List.length fit ->
  N <> n_free ->
  exists r : float64,
    calc_reduced_chi_square fit x y yerr N n_free = Ok r.
Proof.
  intros Ey Eu Hn.
  rewrite (calc_same_length _ _ _ _ _ _ Ey Eu) by lia.
  eexists. reflexivity.
Qed.

Lemma uncertainty_not_validated_witness :
  exists r : float64,
    calc_reduced_chi_square [lit 2; lit 2] [lit 0; lit 1] [lit 1; lit 1]
                            [lit 0; lit (-1)] 2 1 = Ok r.
Proof.
  apply uncertainty_not_validated; [reflexivity | reflexivity | lia].
Defined.

(** C10.  The result does not depend on the argument [x]. *)
Theorem x_is_ignored
  (fit x x' y yerr : ndarray) (N n_free : Z) :
  calc_reduced_chi_square fit x y yerr N n_free
  = calc_reduced_chi_square fit x' y yerr N n_free.
Proof.
  reflexivity.
Qed.

End ChiSquareClaims.

(** ** Claims on compound models *)

Section CompoundClaims.

Import Float Py Np Modeling.
Local Open Scope string_scope.

Lemma call_CompoundModel (op : operator) (a b : Model) (x : ndarray) :
  call (CompoundModel op a b) x
  = (ya <- call a x ;; yb <- call b x ;; ufunc2 (apply_operator op) ya yb).
Proof.
  unfold call. cbn [CompoundModel evaluate parameters].
  rewrite firstn_app, Nat.sub_diag, firstn_all, firstn_O, app_nil_r.
  rewrite skipn_app, Nat.sub_diag, skipn_all, skipn_O.
  reflexivity.
Qed.

(** C3.  Evaluating a compound model on an array is applying its operator
    elementwise to the outputs of the two children, each evaluated on that
    array with its own parameters, for each of the four operators;
    Linear(slope=2, intercept=1) + Linear(slope=-1, intercept=0) at x = 5
    gives 6. *)
Theorem compound_evaluate_elementwise :
  (forall (op : operator) (a b : Model) (x : ndarray),
      call (CompoundModel op a b) x
      = (ya <- call a x ;; yb <- call b x ;;
         ufunc2 (apply_operator op) ya yb))
  /\ (forall (op : operator) (a b : Model) (x ya yb : ndarray),
         call a x = Ok ya -> call b x = Ok yb ->
         List.length ya = List.length x ->
         List.length yb = List.length x ->
         call (CompoundModel op a b) x
         = Ok (zip_with (apply_operator op) ya yb))
  /\ call (CompoundModel Add (Linear1D (lit 2) (lit 1))
                         (Linear1D (lit (-1)) (lit 0)))
          [lit 5]
     = Ok [lit 6].
Proof.
  split; [exact call_CompoundModel | split].
  - intros op a b x ya yb Ha Hb La Lb.
    rewrite call_CompoundModel, Ha, Hb. cbn [bind].
    apply ufunc2_same_length. congruence.
  - canon.
Qed.

Lemma compound_evaluate_elementwise_witness :
  call (CompoundModel Mul (Linear1D (lit 2) (lit 1)) (Polynomial1D 1))
       [lit 5; lit 7]
  = Ok (zip_with fmul [lit 11; lit 15] [lit 0; lit 0]).
Proof.
  apply (proj1 (proj2 compound_evaluate_elementwise) Mul);
    try reflexivity; canon.
Defined.

Lemma child_names_app (i : nat) (l1 l2 : list (list string)) :
  child_names i (l1 ++ l2)
  = (child_names i l1 ++ child_names (i + List.length l1) l2)%list.
Proof.
  revert i. induction l1 as [|names l1 IH]; intros i; cbn [app child_names].
  - now rewrite Nat.add_0_r.
  - rewrite IH, <- app_assoc. cbn [List.length].
    now rewrite Nat.add_succ_r.
Qed.

Lemma child_names_positions (i : nat) (cs : list (list string)) :
  child_names i cs
  = flat_map (fun kn => map (rename (fst kn)) (snd kn))
             (combine (seq i (List.length cs)) cs).
Proof.
  revert i. induction cs as [|names cs IH]; intros i; [reflexivity |].
  cbn [child_names List.length seq combine flat_map fst snd].
  now rewrite IH.
Qed.

(** C4.  A compound model of two models that are not compound has the
    parameters of the first followed by those of the second, each name
    followed by _0 for the first child and _1 for the second.  In general
    the child at position k, counted from 0 in construction order, has
    its names followed by _k.  The names are stable: they do not depend on
    the operators or on how the construction was grouped, and combining a
    compound model with a further model keeps the names it had and adds
    those of the new child with the next index.  Three linear models give
    slope_0 .. intercept_2, and the notebook's [compound_model] gives
    amplitude_0, mean_0, stddev_0, c0_1, c1_1. *)
Theorem compound_parameter_names :
  (forall (op : operator) (a b : Model),
      children a = [param_names a] ->
      children b = [param_names b] ->
      param_names (CompoundModel op a b)
      = (map (fun n => String.append n "_0") (param_names a)
         ++ map (fun n => String.append n "_1") (param_names b))%list
      /\ parameters (CompoundModel op a b)
         = (parameters a ++ parameters b)%list)
  /\ (forall (op : operator) (l r : Model),
         param_names (CompoundModel op l r)
         = flat_map (fun kn => map (rename (fst kn)) (snd kn))
                    (combine
                       (seq 0 (List.length (children l ++ children r)))
                       (children l ++ children r)%list))
  /\ (forall (op op' : operator) (a b c : Model),
         param_names (CompoundModel op (CompoundModel op' a b) c)
         = param_names (CompoundModel op' a (CompoundModel op b c)))
  /\ (forall (op op' : operator) (a b c : Model),
         param_names (CompoundModel op (CompoundModel op' a b) c)
         = (param_names (CompoundModel op' a b)
            ++ child_names (List.length (children a ++ children b))
                           (children c))%list)
  /\ param_names
       (CompoundModel Add
          (CompoundModel Add (Linear1D (lit 2) (lit 1))
                         (Linear1D (lit (-1)) (lit 0)))
          (Linear1D (lit 3) (lit 4)))
     = ["slope_0"; "intercept_0"; "slope_1"; "intercept_1";
        "slope_2"; "intercept_2"]
  /\ (forall exp : float64 -> float64,
         param_names (compound_model exp)
         = ["amplitude_0"; "mean_0"; "stddev_0"; "c0_1"; "c1_1"]).
Proof.
  split; [| split; [| split; [| split; [| split]]]]; try reflexivity.
  - intros op a b Ha Hb. split; [| reflexivity].
    cbn [CompoundModel param_names]. rewrite Ha, Hb.
    cbn [app child_names]. now rewrite app_nil_r.
  - intros op l r. cbn [CompoundModel param_names].
    apply child_names_positions.
  - intros op op' a b c. cbn [CompoundModel param_names children].
    now rewrite app_assoc.
  - intros op op' a b c. cbn [CompoundModel param_names children].
    apply child_names_app.
Qed.

Lemma compound_parameter_names_witness :
  param_names (CompoundModel Add (Linear1D (lit 2) (lit 1))
                             (Linear1D (lit (-1)) (lit 0)))
  = (map (fun n => String.append n "_0")
         (param_names (Linear1D (lit 2) (lit 1)))
     ++ map (fun n => String.append n "_1")
            (param_names (Linear1D (lit (-1)) (lit 0))))%list.
Proof.
  apply (proj1 compound_parameter_names); reflexivity.
Defined.

End CompoundClaims.

(** ** Claims on SineNew *)

Section SineNewClaims.

Import SineNew.
Local Open Scope R_scope.

Lemma nth_map_lt (f : R -> R) (l : rarray) (i : nat) :
  (i < List.length l)%nat -> nth i (map f l) 0 = f (nth i l 0).
Proof.
  intros H. rewrite (nth_indep _ 0 (f 0)) by now rewrite length_map.
  apply map_nth.
Qed.

Lemma amul_map (g : R -> R) (x : rarray) :
  amul (map g x) x = map (fun v => g v * v) x.
Proof.
  induction x as [|v x IH]; simpl; [reflexivity | now rewrite IH].
Qed.

Lemma evaluate_map (x : rarray) (a b c d : R) :
  evaluate x a b c d = map (fun v => a * sin (b * v + c) + d) x.
Proof.
  unfold evaluate, sadd, smul, np_sin. now rewrite !map_map.
Qed.

Lemma fit_deriv_map (x : rarray) (a b c d : R) :
  fit_deriv x a b c d
  = [map (fun v => sin (b * v + c)) x;
     map (fun v => a * cos (b * v + c) * v) x;
     map (fun v => a * cos (b * v + c)) x;
     map (fun _ => 1) x].
Proof.
  unfold fit_deriv, sadd, smul, np_sin, np_cos, np_ones.
  rewrite !map_map, (amul_map (fun v => a * cos (b * v + c))).
  do 3 f_equal. f_equal.
  induction x as [|v x IH]; simpl; [reflexivity | now rewrite IH].
Qed.

Lemma derivable_pt_lim_value (f : R -> R) (p l l' : R) :
  l = l' -> derivable_pt_lim f p l -> derivable_pt_lim f p l'.
Proof. now intros <-. Qed.

(** The four partial derivatives of a * sin(b * v + c) + d. *)
Lemma sine_partial_a (a b c d v : R) :
  derivable_pt_lim (fun a' => a' * sin (b * v + c) + d) a (sin (b * v + c)).
Proof.
  apply (derivable_pt_lim_value _ _ (1 * sin (b * v + c) + a * 0 + 0));
    [ring |].
  apply (derivable_pt_lim_plus (id * fct_cte (sin (b * v + c)))%F
                               (fct_cte d)).
  - apply (derivable_pt_lim_mult id (fct_cte (sin (b * v + c)))).
    + apply derivable_pt_lim_id.
    + apply derivable_pt_lim_const.
  - apply derivable_pt_lim_const.
Qed.

Lemma sine_inner (k m p l : R) :
  derivable_pt_lim (fun t => k * t + m) p l ->
  forall a d,
    derivable_pt_lim (fun t => a * sin (k * t + m) + d) p
                     (a * cos (k * p + m) * l).
Proof.
  intros H a d.
  apply (derivable_pt_lim_value _ _ (a * (cos (k * p + m) * l) + 0));
    [ring |].
  apply (derivable_pt_lim_plus
           (mult_real_fct a (comp sin (fun t => k * t + m))) (fct_cte d)).
  - apply derivable_pt_lim_scal.
    apply (derivable_pt_lim_comp (fun t => k * t + m) sin); [exact H |].
    apply derivable_pt_lim_sin.
  - apply derivable_pt_lim_const.
Qed.

Lemma sine_partial_b (a b c d v : R) :
  derivable_pt_lim (fun b' => a * sin (b' * v + c) + d) b
                   (a * cos (b * v + c) * v).
Proof.
  apply (derivable_pt_lim_ext (fun t => a * sin (v * t + c) + d)).
  - intros z. now rewrite (Rmult_comm v z).
  - rewrite (Rmult_comm b v). apply sine_inner.
    apply (derivable_pt_lim_value _ _ (0 * b + v * 1 + 0)); [ring |].
    apply (derivable_pt_lim_plus (fct_cte v * id)%F (fct_cte c)).
    + apply (derivable_pt_lim_mult (fct_cte v) id).
      * apply derivable_pt_lim_const.
      * apply derivable_pt_lim_id.
    + apply derivable_pt_lim_const.
Qed.

Lemma sine_partial_c (a b c d v : R) :
  derivable_pt_lim (fun c' => a * sin (b * v + c') + d) c
                   (a * cos (b * v + c)).
Proof.
  apply (derivable_pt_lim_ext (fun t => a * sin (1 * t + b * v) + d)).
  - intros z. f_equal. f_equal. f_equal. ring.
  - replace (b * v + c) with (1 * c + b * v) by ring.
    apply (derivable_pt_lim_value
             _ _ (a * cos (1 * c + b * v) * 1)); [ring |].
    apply sine_inner.
    apply (derivable_pt_lim_value _ _ (0 * c + 1 * 1 + 0)); [ring |].
    apply (derivable_pt_lim_plus (fct_cte 1 * id)%F (fct_cte (b * v))).
    + apply (derivable_pt_lim_mult (fct_cte 1) id).
      * apply derivable_pt_lim_const.
      * apply derivable_pt_lim_id.
    + apply derivable_pt_lim_const.
Qed.

Lemma sine_partial_d (a b c d v : R) :
  derivable_pt_lim (fun d' => a * sin (b * v + c) + d') d 1.
Proof.
  apply (derivable_pt_lim_value _ _ (0 + 1)); [ring |].
  apply (derivable_pt_lim_plus (fct_cte (a * sin (b * v + c))) id).
  - apply derivable_pt_lim_const.
  - apply derivable_pt_lim_id.
Qed.

(** C9.  [fit_deriv] returns four arrays, one per declared parameter in
    the order a, b, c, d, each as long as [x]; at every position they hold
    sin(b*x+c), a*cos(b*x+c)*x, a*cos(b*x+c) and 1, and each of these is
    the partial derivative, with respect to its parameter, of
    evaluate = a*sin(b*x+c) + d at that position. *)
Theorem fit_deriv_is_gradient (x : rarray) (a b c d : R) :
  exists d_a d_b d_c d_d : rarray,
    fit_deriv x a b c d = [d_a; d_b; d_c; d_d]
    /\ List.length (fit_deriv x a b c d) = List.length param_names
    /\ List.length d_a = List.length x
    /\ List.length d_b = List.length x
    /\ List.length d_c = List.length x
    /\ List.length d_d = List.length x
    /\ forall i : nat,
        (i < List.length x)%nat ->
        nth i (evaluate x a b c d) 0 = a * sin (b * nth i x 0 + c) + d
        /\ nth i d_a 0 = sin (b * nth i x 0 + c)
        /\ nth i d_b 0 = a * cos (b * nth i x 0 + c) * nth i x 0
        /\ nth i d_c 0 = a * cos (b * nth i x 0 + c)
        /\ nth i d_d 0 = 1
        /\ derivable_pt_lim (fun a' => nth i (evaluate x a' b c d) 0)
                            a (nth i d_a 0)
        /\ derivable_pt_lim (fun b' => nth i (evaluate x a b' c d) 0)
                            b (nth i d_b 0)
        /\ derivable_pt_lim (fun c' => nth i (evaluate x a b c' d) 0)
                            c (nth i d_c 0)
        /\ derivable_pt_lim (fun d' => nth i (evaluate x a b c d') 0)
                            d (nth i d_d 0).
Proof.
  rewrite fit_deriv_map. do 4 eexists.
  split; [reflexivity |]. split; [reflexivity |].
  rewrite !length_map. do 4 (split; [reflexivity |]).
  intros i Hi.
  rewrite evaluate_map, !nth_map_lt by exact Hi.
  do 5 (split; [reflexivity |]).
  repeat split.
  - apply (derivable_pt_lim_ext
             (fun a' => a' * sin (b * nth i x 0 + c) + d)).
    + intros z. now rewrite evaluate_map, nth_map_lt.
    + apply sine_partial_a.
  - apply (derivable_pt_lim_ext
             (fun b' => a * sin (b' * nth i x 0 + c) + d)).
    + intros z. now rewrite evaluate_map, nth_map_lt.
    + apply sine_partial_b.
  - apply (derivable_pt_lim_ext
             (fun c' => a * sin (b * nth i x 0 + c') + d)).
    + intros z. now rewrite evaluate_map, nth_map_lt.
    + apply sine_partial_c.
  - apply (derivable_pt_lim_ext
             (fun d' => a * sin (b * nth i x 0 + c) + d')).
    + intros z. now rewrite evaluate_map, nth_map_lt.
    + apply sine_partial_d.
Qed.

Lemma fit_deriv_is_gradient_witness :
  exists d_a d_b d_c d_d : rarray,
    fit_deriv [0; 1] 3 2 4 1 = [d_a; d_b; d_c; d_d]
    /\ nth 1%nat d_b 0 = 3 * cos (2 * 1 + 4) * 1
    /\ derivable_pt_lim (fun b' => nth 1%nat (evaluate [0; 1] 3 b' 4 1) 0)
                        2 (nth 1%nat d_b 0).
Proof.
  destruct (fit_deriv_is_gradient [0; 1] 3 2 4 1)
    as (d_a & d_b & d_c & d_d & E & _ & _ & _ & _ & _ & H).
  exists d_a, d_b, d_c, d_d.
  destruct (H 1%nat) as (_ & _ & Hb & _ & _ & _ & Db & _);
    [simpl; lia |].
  split; [exact E |]. split; [exact Hb | exact Db].
Defined.

End SineNewClaims.

(** * Further properties of the notebooks' code *)

(** ** Rational arithmetic *)

Section RationalFacts.

Local Open Scope Qc_scope.

Lemma Qc_opp_Q (a : Qc) : (this (- a) == - this a)%Q.
Proof. apply Qred_correct. Qed.

Lemma opp_compare (p : Qc) : (- p ?= 0) = CompOpp (p ?= 0).
Proof.
  unfold Qccompare. rewrite Qc_opp_Q. change (this 0) with 0%Q.
  destruct (this p) as [[|n|n] d]; reflexivity.
Qed.

End RationalFacts.

(** ** The array expression on arbitrary arrays *)

Section ArrayExpression.

Import Float Py Np ChiSquare Residuals.
Local Open Scope Qc_scope.

Lemma zip_with_swap op1 op2 h (a b : ndarray) :
  (forall u v, op2 v u = h (op1 u v)) ->
  zip_with op2 b a = map h (zip_with op1 a b).
Proof.
  intros H. revert b.
  induction a as [|u a IH]; intros [|v b]; cbn; try reflexivity.
  now rewrite H, IH.
Qed.

Lemma ufunc2_swap op1 op2 h (a b : ndarray) :
  (forall u v, op2 v u = h (op1 u v)) ->
  ufunc2 op2 b a = rmap (map h) (ufunc2 op1 a b).
Proof.
  intros H. unfold ufunc2.
  rewrite (Nat.eqb_sym (List.length b) (List.length a)).
  destruct (Nat.eqb (List.length a) (List.length b)) eqn:E.
  - cbn. f_equal. now apply zip_with_swap.
  - destruct a as [|s [|s' a]], b as [|t [|t' b]]; cbn in E |- *;
      try discriminate E; try reflexivity;
      rewrite ?H; do 2 f_equal; rewrite ?H; try reflexivity;
      rewrite ?map_map; f_equal; apply map_ext; intros w; now rewrite H.
Qed.

Lemma zip_with_map_l op1 op2 g h (a b : ndarray) :
  (forall u v, op2 (g u) v = h (op1 u v)) ->
  zip_with op2 (map g a) b = map h (zip_with op1 a b).
Proof.
  intros H. revert b.
  induction a as [|u a IH]; intros [|v b]; cbn; try reflexivity.
  now rewrite H, IH.
Qed.

Lemma ufunc2_map_l op1 op2 g h (a b : ndarray) :
  (forall u v, op2 (g u) v = h (op1 u v)) ->
  ufunc2 op2 (map g a) b = rmap (map h) (ufunc2 op1 a b).
Proof.
  intros H. unfold ufunc2. rewrite length_map.
  destruct (Nat.eqb (List.length a) (List.length b)) eqn:E.
  - cbn. f_equal. now apply zip_with_map_l.
  - destruct a as [|s [|s' a]], b as [|t [|t' b]]; cbn in E |- *;
      try discriminate E; try reflexivity;
      rewrite ?H; do 2 f_equal; rewrite ?H; try reflexivity;
      rewrite ?map_map; f_equal; apply map_ext; intros w; now rewrite H.
Qed.

Lemma fsub_swap (a b : float64) : fsub b a = fneg (fsub a b).
Proof.
  destruct a, b; cbn; try reflexivity. f_equal. ring.
Qed.

Lemma fdiv_neg_l (a b : float64) : fdiv (fneg a) b = fneg (fdiv a b).
Proof.
  destruct a as [p| | |], b as [q| | |]; cbn [fneg fdiv];
    rewrite ?opp_compare;
    repeat match goal with
           | |- context [Qccompare ?c ?d] => destruct (Qccompare c d)
           end;
    cbn [fneg inf_of_sign CompOpp]; try reflexivity;
    f_equal; unfold Qcdiv; ring.
Qed.

Lemma fpow_neg_2 (a : float64) : fpow (fneg a) 2 = fpow a 2.
Proof.
  destruct a as [p| | |]; cbn; try reflexivity. f_equal. ring.
Qed.

Lemma neg_nonzero (q : Qc) : q <> 0 -> - q <> 0.
Proof.
  intros H E. apply H. replace q with (- - q) by ring. rewrite E. ring.
Qed.

Lemma square_neg_divisor (a u : float64) :
  fpow (fdiv a (fneg u)) 2 = fpow (fdiv a u) 2.
Proof.
  destruct a as [p| | |], u as [q| | |]; cbn [fneg fdiv];
    rewrite ?opp_compare; try reflexivity;
    destruct (q ?= 0) eqn:E; cbn [CompOpp]; try reflexivity.
  all: assert (Hq : q <> 0) by (intros Hq; apply Qceq_alt in Hq; congruence).
  all: cbn [fpow fmul]; f_equal; field;
    split; [exact Hq | exact (neg_nonzero _ Hq)].
Qed.

Lemma zip_with_neg_divisor (d u : ndarray) :
  power (zip_with fdiv d (negative u)) 2 = power (zip_with fdiv d u) 2.
Proof.
  unfold negative, power. revert u.
  induction d as [|a d IH]; intros [|b u]; cbn [map zip_with];
    try reflexivity.
  rewrite square_neg_divisor. f_equal. apply IH.
Qed.

Lemma divide_neg_divisor (d u : ndarray) :
  rmap (fun r => power r 2) (divide d (negative u))
  = rmap (fun r => power r 2) (divide d u).
Proof.
  unfold divide, ufunc2, negative. rewrite length_map.
  destruct (Nat.eqb (List.length d) (List.length u)) eqn:E.
  - cbn [rmap]. f_equal. apply zip_with_neg_divisor.
  - destruct d as [|s [|s' d]], u as [|t [|t' u]]; cbn in E;
      try discriminate E; cbn [map rmap]; try reflexivity;
      f_equal; unfold power; cbn [map]; rewrite ?square_neg_divisor;
      do 2 f_equal; rewrite ?map_map; apply map_ext; intros w;
      apply square_neg_divisor.
Qed.

Lemma bind_rmap (F : float64 -> float64) (g : ndarray -> ndarray)
  (m m' : result ndarray) :
  rmap g m = rmap g m' ->
  (r <- m ;; Ok (F (Py.sum (g r)))) = (r <- m' ;; Ok (F (Py.sum (g r)))).
Proof.
  destruct m, m'; cbn; intros H; inversion H; congruence.
Qed.

Lemma zip_with_repeat op (d : ndarray) (s : float64) :
  zip_with op d (repeat s (List.length d)) = map (fun v => op v s) d.
Proof.
  induction d as [|a d IH]; cbn; [reflexivity | now rewrite IH].
Qed.

Lemma ufunc2_broadcast_r op (d : ndarray) (s : float64) :
  ufunc2 op d [s] = ufunc2 op d (repeat s (List.length d)).
Proof.
  destruct d as [|a [|a' d]]; try reflexivity.
  unfold ufunc2 at 2. rewrite repeat_length, Nat.eqb_refl.
  rewrite zip_with_repeat. reflexivity.
Qed.

(** X8.  The fit and the observations can be exchanged: only the squared
    difference enters, for all arrays, errors included. *)
Theorem fit_and_observations_exchange
  (fit x y yerr : ndarray) (N n_free : Z) :
  calc_reduced_chi_square y x fit yerr N n_free
  = calc_reduced_chi_square fit x y yerr N n_free.
Proof.
  unfold calc_reduced_chi_square.
  destruct (truediv (lit 1) (N - n_free)) as [factor | e];
    [cbn [bind] | reflexivity].
  unfold subtract. rewrite (ufunc2_swap fsub fsub fneg fit y fsub_swap).
  destruct (ufunc2 fsub fit y) as [d | e]; [cbn [rmap bind] | reflexivity].
  unfold divide.
  rewrite (ufunc2_map_l fdiv fdiv fneg fneg d yerr fdiv_neg_l).
  destruct (ufunc2 fdiv d yerr) as [r | e];
    [cbn [rmap bind] | reflexivity].
  do 3 f_equal. unfold power. rewrite map_map.
  apply map_ext. intros w. apply fpow_neg_2.
Qed.

(** X9.  The sign of the uncertainties is ignored: negating them changes
    nothing, for all arrays. *)
Theorem uncertainty_sign_ignored
  (fit x y yerr : ndarray) (N n_free : Z) :
  calc_reduced_chi_square fit x y (negative yerr) N n_free
  = calc_reduced_chi_square fit x y yerr N n_free.
Proof.
  unfold calc_reduced_chi_square.
  destruct (truediv (lit 1) (N - n_free)) as [factor | e];
    [cbn [bind] | reflexivity].
  destruct (subtract fit y) as [d | e]; [cbn [bind] | reflexivity].
  apply (bind_rmap (fmul factor) (fun r => power r 2)).
  apply divide_neg_divisor.
Qed.

(** X10.  An uncertainty array of length 1 is broadcast: it gives the result of
    the array that repeats its value for every point. *)
Theorem single_uncertainty_broadcast
  (s : float64) (fit x y : ndarray) (N n_free : Z) :
  List.length y = List.length fit ->
  calc_reduced_chi_square fit x y [s] N n_free
  = calc_reduced_chi_square fit x y (repeat s (List.length fit)) N n_free.
Proof.
  intros Ey. unfold calc_reduced_chi_square.
  destruct (truediv (lit 1) (N - n_free)) as [factor | e];
    [cbn [bind] | reflexivity].
  unfold subtract. rewrite ufunc2_same_length by congruence. cbn [bind].
  unfold divide. rewrite ufunc2_broadcast_r, zip_with_length by congruence.
  reflexivity.
Qed.

Lemma single_uncertainty_broadcast_witness :
  calc_reduced_chi_square [lit 3; lit 5; lit 8] [] [lit 1; lit 1; lit 2]
                          [lit 2] 3 1
  = calc_reduced_chi_square [lit 3; lit 5; lit 8] [] [lit 1; lit 1; lit 2]
                            (repeat (lit 2) 3) 3 1.
Proof.
  apply (single_uncertainty_broadcast (lit 2) [lit 3; lit 5; lit 8]).
  reflexivity.
Defined.

(** X12.  With no data at all the function returns 0 for every [N <> n_free]. *)
Theorem empty_arrays_give_zero (x : ndarray) (N n_free : Z) :
  N <> n_free ->
  calc_reduced_chi_square [] x [] [] N n_free = Ok (lit 0).
Proof.
  intros Hn.
  rewrite (calc_same_length [] x [] [] N n_free eq_refl eq_refl) by lia.
  rewrite factor_finite by lia. cbn. unfold lit. do 2 f_equal. ring.
Qed.

Lemma empty_arrays_give_zero_witness :
  calc_reduced_chi_square [] [] [] [] 100 4 = Ok (lit 0).
Proof.
  apply empty_arrays_give_zero. lia.
Defined.

Lemma residual_of_reals (f v u : float64) :
  is_finite f = true -> is_finite v = true -> is_finite u = true ->
  is_finite (residual f v u) || is_inf_or_nan (residual f v u) = true.
Proof.
  destruct f as [p| | |], v as [r| | |], u as [q| | |]; try discriminate.
  intros _ _ _. unfold residual, fsub, fneg, fadd, fdiv.
  destruct (q ?= 0); [| reflexivity | reflexivity].
  now destruct (p + - r ?= 0).
Qed.

Lemma residual_zero_uncertainty (f v u : float64) :
  is_finite f = true -> is_finite v = true -> is_zero u = true ->
  is_inf_or_nan (residual f v u) = true.
Proof.
  destruct f as [p| | |], v as [r| | |], u as [q| | |]; try discriminate.
  intros _ _. cbn [is_zero]. unfold residual, fsub, fneg, fadd, fdiv.
  destruct (q ?= 0); try discriminate. intros _.
  now destruct (p + - r ?= 0).
Qed.

Lemma fadd_special_l (a t : float64) :
  is_inf_or_nan a = true ->
  is_finite t || is_inf_or_nan t = true ->
  is_inf_or_nan (fadd a t) = true.
Proof. destruct a, t; try discriminate; reflexivity. Qed.

Lemma fadd_special_r (a t : float64) :
  is_finite a || is_inf_or_nan a = true ->
  is_inf_or_nan t = true ->
  is_inf_or_nan (fadd a t) = true.
Proof. destruct a, t; try discriminate; reflexivity. Qed.

Lemma fadd_no_neg_inf (a t : float64) :
  is_finite a || is_inf_or_nan a = true ->
  is_finite t || is_inf_or_nan t = true ->
  is_finite (fadd a t) || is_inf_or_nan (fadd a t) = true.
Proof. destruct a, t; try discriminate; reflexivity. Qed.

Lemma sum_stays_special (l : list float64) (a : float64) :
  is_inf_or_nan a = true ->
  (forall t, In t l -> is_finite t || is_inf_or_nan t = true) ->
  is_inf_or_nan (fold_left fadd l a) = true.
Proof.
  revert a. induction l as [|t l IH]; intros a Ha Hl; [exact Ha |].
  cbn [fold_left]. apply IH.
  - apply fadd_special_l; [exact Ha | apply Hl; now left].
  - intros t' Ht'. apply Hl. now right.
Qed.

Lemma sum_becomes_special (l : list float64) (a : float64) :
  is_finite a || is_inf_or_nan a = true ->
  (forall t, In t l -> is_finite t || is_inf_or_nan t = true) ->
  (exists t, In t l /\ is_inf_or_nan t = true) ->
  is_inf_or_nan (fold_left fadd l a) = true.
Proof.
  revert a. induction l as [|t l IH]; intros a Ha Hl [t0 [Hin Ht0]].
  - destruct Hin.
  - cbn [fold_left]. destruct Hin as [<- | Hin].
    + apply sum_stays_special.
      * now apply fadd_special_r.
      * intros t' Ht'. apply Hl. now right.
    + apply IH.
      * apply fadd_no_neg_inf; [exact Ha | apply Hl; now left].
      * intros t' Ht'. apply Hl. now right.
      * exists t0. now split.
Qed.

Lemma fmul_special (c : Qc) (s : float64) :
  is_inf_or_nan s = true -> is_finite (fmul (Fin c) s) = false.
Proof.
  destruct s; try discriminate; intros _; cbn [fmul];
    [now destruct (c ?= 0) | reflexivity].
Qed.

(** X13.  A zero uncertainty never raises and never gives a number: on arrays
    of real numbers of one length, one of whose uncertainties is zero, the
    result is inf or nan. *)
Theorem zero_uncertainty_not_finite
  (fit x y yerr : ndarray) (N n_free : Z) :
  List.length y = List.length fit ->
  List.length yerr = List.length fit ->
  forallb is_finite fit = true ->
  forallb is_finite y = true ->
  forallb is_finite yerr = true ->
  existsb is_zero yerr = true ->
  N <> n_free ->
  exists r : float64,
    calc_reduced_chi_square fit x y yerr N n_free = Ok r
    /\ is_finite r = false.
Proof.
  intros Ey Eu Ff Fy Fu Hz Hn.
  rewrite (calc_same_length _ _ _ _ _ _ Ey Eu) by lia.
  rewrite (residuals_seq _ _ _ Ey Eu), factor_finite by lia.
  eexists. split; [reflexivity |]. apply fmul_special.
  unfold Py.sum. apply sum_becomes_special; [reflexivity | |].
  - intros t Ht. apply in_map_iff in Ht. destruct Ht as (i & <- & Hi).
    apply in_seq in Hi.
    apply residual_of_reals; apply item_forallb; trivial; lia.
  - apply existsb_exists in Hz. destruct Hz as (u & Hu & Zu).
    destruct (In_nth _ _ NaN Hu) as (j & Hj & Ej).
    exists (residual (item fit j) (item y j) (item yerr j)). split.
    + apply in_map_iff. exists j. split; [reflexivity |].
      apply in_seq. lia.
    + apply residual_zero_uncertainty;
        [apply item_forallb; trivial; lia
        | apply item_forallb; trivial; lia |].
      unfold item. now rewrite Ej.
Qed.

Lemma zero_uncertainty_not_finite_witness :
  exists r : float64,
    calc_reduced_chi_square [lit 3; lit 5] [] [lit 1; lit 5]
                            [lit 2; lit 0] 2 1 = Ok r
    /\ is_finite r = false.
Proof.
  apply zero_uncertainty_not_finite; try reflexivity. lia.
Defined.

End ArrayExpression.

(** ** The Gaussian and the sine over the reals *)

Section RealFunctionFacts.

Import SineNew RealFunctions.
Local Open Scope R_scope.

Lemma f_map (x : rarray) (a b c : R) :
  f x a b c = map (fun v => a * exp (- (v - b) ^ 2 / (2 * c ^ 2))) x.
Proof.
  unfold f, smul, np_exp, sdiv, aneg, apow, ssub. now rewrite !map_map.
Qed.

(** X16.  Only the square of the width enters: [c] and [-c] give the same
    curve, so a fit cannot tell them apart. *)
Theorem gaussian_width_sign (x : rarray) (a b c : R) :
  f x a b (- c) = f x a b c.
Proof.
  rewrite !f_map. apply map_ext. intros v.
  do 2 f_equal. f_equal. f_equal. ring.
Qed.

(** X23.  SineNew is linear in [a] and [d]: each value is [a] times the
    [d_a] entry plus [d] times the [d_d] entry of [fit_deriv]. *)
Theorem sine_linear_in_a_and_d (x : rarray) (a b c d : R) (i : nat) :
  (i < List.length x)%nat ->
  nth i (evaluate x a b c d) 0
  = a * nth i (nth 0 (fit_deriv x a b c d) []) 0
    + d * nth i (nth 3 (fit_deriv x a b c d) []) 0.
Proof.
  intros Hi. rewrite evaluate_map, fit_deriv_map. cbn [nth].
  rewrite !nth_map_lt by exact Hi. ring.
Qed.

Lemma sine_linear_in_a_and_d_witness :
  nth 1 (evaluate [0; 1] 3 2 4 1) 0
  = 3 * nth 1 (nth 0 (fit_deriv [0; 1] 3 2 4 1) []) 0
    + 1 * nth 1 (nth 3 (fit_deriv [0; 1] 3 2 4 1) []) 0.
Proof.
  apply sine_linear_in_a_and_d. simpl. lia.
Defined.

End RealFunctionFacts.

(** ** The unit string *)

Section HeaderFacts.

Import Header.
Local Open Scope string_scope.

Lemma slice_from_spec (n : nat) (s : string) :
  String.length (slice_from n s) = (String.length s - n)%nat
  /\ s = substring 0 n s ++ slice_from n s.
Proof.
  revert s. induction n as [|n IH]; intros s.
  - cbn [slice_from]. split; [now rewrite Nat.sub_0_r |].
    now destruct s.
  - destruct s as [|c s]; [now split |].
    destruct (IH s) as [IH1 IH2]. cbn [slice_from String.length substring].
    split; [exact IH1 |]. cbn [append]. now rewrite <- IH2.
Qed.

(** X25.  The unit is what is left of the header value after its first 36
    characters: nothing is lost on values of 36 characters or more, and a
    shorter value gives the empty string instead of an error. *)
Theorem units_wavelength_is_rest (units_wavelength_full : string) :
  units_wavelength_full
  = substring 0 36 units_wavelength_full
    ++ units_wavelength units_wavelength_full
  /\ String.length (units_wavelength units_wavelength_full)
     = (String.length units_wavelength_full - 36)%nat
  /\ (String.length units_wavelength_full <= 36 ->
      units_wavelength units_wavelength_full = "")%nat.
Proof.
  destruct (slice_from_spec 36 units_wavelength_full) as [H1 H2].
  split; [exact H2 |]. split; [exact H1 |].
  intros Hl. unfold units_wavelength in *.
  destruct (slice_from 36 units_wavelength_full); [reflexivity |].
  cbn [String.length] in H1. lia.
Qed.

Lemma units_wavelength_is_rest_witness :
  units_wavelength "wtype=linear" = "".
Proof.
  apply (units_wavelength_is_rest "wtype=linear"). simpl. lia.
Defined.

Example units_of_sdss_header :
  units_wavelength "wtype=linear label=Wavelength units=Angstroms"
  = "Angstroms".
Proof. reflexivity. Qed.

End HeaderFacts.

(** ** The reduced chi-square in binary64 *)

Section Binary64.

Import PrimFloat.
Local Open Scope float_scope.

Lemma b64_zip_with_length op (a b : B64.ndarray) :
  List.length a = List.length b ->
  List.length (B64.zip_with op a b) = List.length a.
Proof.
  revert b. induction a as [|u a IH]; intros [|v b] H; simpl in *;
    try reflexivity; try discriminate.
  f_equal. apply IH. now injection H.
Qed.


Lemma b64_ufunc2_shape op (a b : B64.ndarray) :
  (B64.broadcastable (List.length a) (List.length b) = true ->
   exists l, B64.ufunc2 op a b = B64.Ok l
             /\ List.length l
                = B64.broadcast_length (List.length a) (List.length b))
  /\ (B64.broadcastable (List.length a) (List.length b) = false ->
      B64.ufunc2 op a b = B64.Raise B64.ValueError).
Proof.
  unfold B64.ufunc2, B64.broadcastable, B64.broadcast_length.
  destruct (Nat.eqb (List.length a) (List.length b)) eqn:E.
  - split; [| discriminate]. intros _. eexists. split; [reflexivity |].
    apply b64_zip_with_length. now apply Nat.eqb_eq.
  - destruct a as [|s [|s' a]], b as [|t [|t' b]]; cbn in E |- *;
      try discriminate E;
      split; intros Hb; try discriminate Hb; try reflexivity;
      eexists; (split; [reflexivity | cbn; now rewrite ?length_map]).
Qed.



















(** X11.  The failures of the function, in the order in which they are
    met: OverflowError when [N - n_free] is too large for a float,
    ZeroDivisionError when [N = n_free], ValueError when the three shapes
    do not broadcast; in every other case a value is returned. *)
Theorem failures_of_calc_reduced_chi_square
  (fit x y yerr : B64.ndarray) (N n_free : Z) :
  (B64.int_fits (N - n_free) = false ->
   B64.calc_reduced_chi_square fit x y yerr N n_free
   = B64.Raise B64.OverflowError)
  /\ (N = n_free ->
      B64.calc_reduced_chi_square fit x y yerr N n_free
      = B64.Raise B64.ZeroDivisionError)
  /\ (B64.int_fits (N - n_free) = true -> N <> n_free ->
      (B64.shapes_ok fit y yerr = false ->
       B64.calc_reduced_chi_square fit x y yerr N n_free
       = B64.Raise B64.ValueError)
      /\ (B64.shapes_ok fit y yerr = true ->
          exists r, B64.calc_reduced_chi_square fit x y yerr N n_free
                    = B64.Ok r)).
Proof.
  unfold B64.calc_reduced_chi_square, B64.truediv.
  split; [| split].
  - intros Hf. now rewrite Hf.
  - intros ->. now rewrite Z.sub_diag.
  - intros Hf Hn.
    assert (E : (N - n_free =? 0)%Z = false) by (apply Z.eqb_neq; lia).
    rewrite Hf, E. cbn [negb B64.bind].
    unfold B64.shapes_ok, B64.subtract, B64.divide.
    destruct (b64_ufunc2_shape sub fit y) as [S1 S2].
    destruct (B64.broadcastable (List.length fit) (List.length y)).
    + destruct (S1 eq_refl) as (d & Ed & Ld). rewrite Ed, <- Ld.
      cbn [B64.bind andb].
      destruct (b64_ufunc2_shape div d yerr) as [T1 T2].
      destruct (B64.broadcastable (List.length d) (List.length yerr)).
      * split; [discriminate | intros _].
        destruct (T1 eq_refl) as (r & Er & _). rewrite Er.
        cbn [B64.bind]. eexists. reflexivity.
      * split; [intros _ | discriminate].
        now rewrite (T2 eq_refl).
    + cbn [andb]. split; [intros _ | discriminate].
      now rewrite (S2 eq_refl).
Qed.

Lemma failures_of_calc_reduced_chi_square_witness :
  B64.calc_reduced_chi_square [3; 5; 8] [] [1; 1; 2] [2; 4] (2 ^ 1024) 1
  = B64.Raise B64.OverflowError
  /\ B64.calc_reduced_chi_square [3; 5; 8] [] [1; 1; 2] [2; 4] 3 3
     = B64.Raise B64.ZeroDivisionError
  /\ B64.calc_reduced_chi_square [3; 5; 8] [] [1; 1; 2] [2; 4] 3 1
     = B64.Raise B64.ValueError.
Proof.
  split; [| split].
  - apply (proj1 (failures_of_calc_reduced_chi_square
                    [3; 5; 8] [] [1; 1; 2] [2; 4] (2 ^ 1024) 1)).
    reflexivity.
  - apply (proj1 (proj2 (failures_of_calc_reduced_chi_square
                           [3; 5; 8] [] [1; 1; 2] [2; 4] 3 3))).
    reflexivity.
  - apply (proj2 (proj2 (failures_of_calc_reduced_chi_square
                           [3; 5; 8] [] [1; 1; 2] [2; 4] 3 1)));
      [reflexivity | lia | reflexivity].
Defined.

End Binary64.
